(** * flaskr: authentication, session identity and ownership-checked posts

    A shallow embedding of [src/flaskr/auth.py] and [src/flaskr/blog.py]
    (with the [get_db] connection of [src/flaskr/db.py] reduced to the
    database value itself).

    - The relational store is a record of two tables, each a list of rows in
      storage order; [fetchone] returns the first matching row.
    - A Flask view is a computation in a small state-and-exception monad:
      the state holds the store and the signed client session (its
      [user_id] and the flashed messages that Flask keeps inside it); an
      exception is either an HTTP abort or an unhandled Python error.
    - [g.user] is passed explicitly to the views as the identity slot
      computed by [load_logged_in_user] at the start of each request.
    - werkzeug's [generate_password_hash] / [check_password_hash] are
      section variables: nothing below depends on how hashing works. *)

From Stdlib Require Import String ZArith List Bool Lia Sorted Permutation.
Import ListNotations.
Open Scope string_scope.
Open Scope Z_scope.

(** ** Rows and the store *)

(** A row of table [user]: [id], [username], [password] (the hash). *)
Record User := mkUser {
  user_id : Z;
  username : string;
  user_password : string   (* column [password] *)
}.

(** A row of table [post]. *)
Record Post := mkPost {
  post_id : Z;
  title : string;
  body : string;
  created : Z;
  author_id : Z
}.

(** A row of [post p JOIN user u ON p.author_id = u.id], with the columns
    [p.id, title, body, created, author_id, username]. *)
Record PostRow := mkPostRow {
  row_post : Post;
  row_username : string
}.

Record DB := mkDB {
  users : list User;
  posts : list Post;
  (* value of CURRENT_TIMESTAMP for the statement being run *)
  now : Z
}.

(** Flask's session: a signed cookie holding [user_id] and the flashed
    messages ([flash] stores them in the session). *)
Record Session := mkSession {
  sess_user_id : option Z;
  sess_flashes : list string
}.

Record St := mkSt {
  st_db : DB;
  st_session : Session
}.

(** ** SQL statements used by the views *)

Fixpoint max_id (l : list Z) : Z :=
  match l with
  | [] => 0
  | x :: r => Z.max x (max_id r)
  end.

(** [SELECT * FROM user WHERE username = ?] followed by [fetchone()]. *)
Definition find_user_by_name (d : DB) (name : string) : option User :=
  find (fun u => String.eqb (username u) name) (users d).

(** [SELECT * FROM user WHERE id = ?] followed by [fetchone()]. *)
Definition find_user_by_id (d : DB) (id : Z) : option User :=
  find (fun u => Z.eqb (user_id u) id) (users d).

(** Modelled from the spec: the [user] table of [schema.sql] (not in the
    sources), "user(id PK, username UNIQUE NOT NULL, password TEXT NOT
    NULL)".  [INSERT INTO user (username, password) VALUES (?, ?)] raises
    [IntegrityError] ([None] here) when the username is already present;
    otherwise the row is appended with a fresh integer primary key. *)
Definition insert_user (d : DB) (name pw : string) : option DB :=
  if existsb (fun u => String.eqb (username u) name) (users d) then None
  else Some (mkDB (users d ++ [mkUser (1 + max_id (map user_id (users d))) name pw])
                  (posts d) (now d)).

(** [INSERT INTO post (title, body, author_id) VALUES (?, ?, ?)]; [id] is
    a fresh primary key and [created] defaults to the current time. *)
Definition insert_post (d : DB) (t b : string) (aid : Z) : DB :=
  mkDB (users d)
       (posts d ++ [mkPost (1 + max_id (map post_id (posts d))) t b (now d) aid])
       (now d).

(** [UPDATE post SET title = ?, body = ? WHERE id = ?]. *)
Definition update_post (d : DB) (t b : string) (id : Z) : DB :=
  mkDB (users d)
       (map (fun p => if Z.eqb (post_id p) id
                      then mkPost (post_id p) t b (created p) (author_id p)
                      else p) (posts d))
       (now d).

(** [DELETE FROM post WHERE id = ?]. *)
Definition delete_post (d : DB) (id : Z) : DB :=
  mkDB (users d) (filter (fun p => negb (Z.eqb (post_id p) id)) (posts d)) (now d).

(** [FROM post p JOIN user u ON p.author_id = u.id] (nested loop, post
    table outermost). *)
Definition post_join (d : DB) : list PostRow :=
  flat_map (fun p => map (fun u => mkPostRow p (username u))
                         (filter (fun u => Z.eqb (user_id u) (author_id p)) (users d)))
           (posts d).

(** The same join [WHERE p.id = ?], then [fetchone()]. *)
Definition select_post (d : DB) (id : Z) : option PostRow :=
  find (fun r => Z.eqb (post_id (row_post r)) id) (post_join d).

(** [ORDER BY created DESC] (an insertion sort; SQLite leaves the order
    of equal timestamps unspecified). *)
Fixpoint insert_desc (r : PostRow) (l : list PostRow) : list PostRow :=
  match l with
  | [] => [r]
  | x :: xs => if created (row_post x) <? created (row_post r)
               then r :: x :: xs else x :: insert_desc r xs
  end.

Fixpoint sort_created_desc (l : list PostRow) : list PostRow :=
  match l with
  | [] => []
  | x :: xs => insert_desc x (sort_created_desc xs)
  end.

(** ** Responses, requests and the view monad *)

Inductive Response :=
| Redirect (endpoint : string)
| Render (template : string) (rows : list PostRow)
| Abort (code : Z)                (* werkzeug's [abort] / HTTP errors *)
| Crash (exn : string).           (* an unhandled Python exception (500) *)

Inductive Method := GET | POST.

Record Request := mkRequest {
  req_method : Method;
  req_form : list (string * string)
}.

Definition is_post (req : Request) : bool :=
  match req_method req with POST => true | GET => false end.

Inductive Outcome (A : Type) :=
| Ret (a : A)
| Raise (r : Response).
Arguments Ret {A} a.
Arguments Raise {A} r.

(** A view runs against the store and the session; an exception ends the
    request, keeping the effects already committed. *)
Definition View (A : Type) := St -> Outcome A * St.

Definition ret {A} (a : A) : View A := fun s => (Ret a, s).
Definition raise {A} (r : Response) : View A := fun s => (Raise r, s).
Definition bind {A B} (m : View A) (k : A -> View B) : View B :=
  fun s => match m s with
           | (Ret a, s') => k a s'
           | (Raise r, s') => (Raise r, s')
           end.

Notation "x <- m ;; k" := (bind m (fun x => k))
  (at level 61, m at next level, right associativity).
Notation "m ;;; k" := (bind m (fun _ => k))
  (at level 61, right associativity).

(** [get_db()]: the store. *)
Definition get_db : View DB := fun s => (Ret (st_db s), s).

Definition set_db (d : DB) : View unit :=
  fun s => (Ret tt, mkSt d (st_session s)).

(** [request.form[key]]: a missing key is werkzeug's [BadRequestKeyError]. *)
Definition form_get (req : Request) (key : string) : View string :=
  match find (fun kv => String.eqb (fst kv) key) (req_form req) with
  | Some kv => ret (snd kv)
  | None => raise (Abort 400)
  end.

(** [flash(message)]: appended to the session's flashed messages. *)
Definition flash (msg : string) : View unit :=
  fun s => (Ret tt, mkSt (st_db s)
                         (mkSession (sess_user_id (st_session s))
                                    (sess_flashes (st_session s) ++ [msg]))).

(** [session.clear()]. *)
Definition session_clear : View unit :=
  fun s => (Ret tt, mkSt (st_db s) (mkSession None [])).

(** [session['user_id'] = id]. *)
Definition session_set_user_id (id : Z) : View unit :=
  fun s => (Ret tt, mkSt (st_db s)
                         (mkSession (Some id) (sess_flashes (st_session s)))).

(** [g.user['id']]: subscripting [None] raises [TypeError]. *)
Definition g_user_id (gu : option User) : View Z :=
  match gu with
  | None => raise (Crash "TypeError")
  | Some u => ret (user_id u)
  end.

(** [not s] for a form string. *)
Definition is_empty (s : string) : bool := String.eqb s "".

Section Views.

Variable generate_password_hash : string -> string.
Variable check_password_hash : string -> string -> bool.

(** [INSERT INTO user ...; db.commit()], [false] on [db.IntegrityError]. *)
Definition exec_insert_user (name pw : string) : View bool :=
  fun s => match insert_user (st_db s) name pw with
           | Some d => (Ret true, mkSt d (st_session s))
           | None => (Ret false, s)
           end.

(** [auth.register]. *)
Definition register (req : Request) : View Response :=
  if is_post req then
    username <- form_get req "username" ;;
    password <- form_get req "password" ;;
    _ <- get_db ;;
    let error := if is_empty username then Some "username not provided"
                 else if is_empty password then Some "password not provided"
                 else None in
    match error with
    | None =>
        ok <- exec_insert_user username (generate_password_hash password) ;;
        if ok then ret (Redirect "auth.login")
        else flash ("user " ++ username ++ " is already registered") ;;;
             ret (Render "auth/register.html" [])
    | Some e => flash e ;;; ret (Render "auth/register.html" [])
    end
  else ret (Render "auth/register.html" []).

(** [auth.login]. *)
Definition login (req : Request) : View Response :=
  if is_post req then
    username <- form_get req "username" ;;
    password <- form_get req "password" ;;
    db <- get_db ;;
    let user := find_user_by_name db username in
    let error := match user with
                 | None => Some "incorrect username or password"
                 | Some u => if negb (check_password_hash (user_password u) password)
                             then Some "incorrect username or password"
                             else None
                 end in
    match error with
    | None =>
        session_clear ;;;
        uid <- g_user_id user ;;
        session_set_user_id uid ;;;
        ret (Redirect "index")
    | Some e => flash e ;;; ret (Render "auth/login.html" [])
    end
  else ret (Render "auth/login.html" []).

End Views.

(** [auth.load_logged_in_user], run before every request: the value of
    [g.user]. *)
Definition load_logged_in_user (sess : Session) (db : DB) : option User :=
  match sess_user_id sess with
  | None => None
  | Some uid => find_user_by_id db uid
  end.

(** [auth.logout]. *)
Definition logout : View Response :=
  session_clear ;;; ret (Redirect "index").

(** [auth.login_required] applied to a view. *)
Definition login_required (view : option User -> View Response)
  : option User -> View Response :=
  fun gu => match gu with
            | None => ret (Redirect "auth.login")
            | Some _ => view gu
            end.

(** ** Blog views *)

(** [blog.get_post(id, check_author)]. *)
Definition get_post (gu : option User) (id : Z) (check_author : bool)
  : View PostRow :=
  db <- get_db ;;
  match select_post db id with
  | None => raise (Abort 404)
  | Some post =>
      if check_author then
        uid <- g_user_id gu ;;
        if negb (Z.eqb (author_id (row_post post)) uid) then raise (Abort 403)
        else ret post
      else ret post
  end.

(** The rows listed by [blog.index]. *)
Definition index_rows (db : DB) : list PostRow :=
  sort_created_desc (post_join db).

(** [blog.index]. *)
Definition index : View Response :=
  db <- get_db ;;
  ret (Render "blog/index.html" (index_rows db)).

(** [blog.create] (its [@login_required] is commented out in the source). *)
Definition create (gu : option User) (req : Request) : View Response :=
  if is_post req then
    title <- form_get req "title" ;;
    body <- form_get req "body" ;;
    if is_empty title then
      flash "title is required" ;;; ret (Render "blog/create.html" [])
    else
      db <- get_db ;;
      aid <- g_user_id gu ;;
      set_db (insert_post db title body aid) ;;;
      ret (Redirect "blog.index")
  else ret (Render "blog/create.html" []).

(** [blog.update(id)], undecorated. *)
Definition update (gu : option User) (id : Z) (req : Request) : View Response :=
  post <- get_post gu id true ;;
  if is_post req then
    title <- form_get req "title" ;;
    body <- form_get req "body" ;;
    if is_empty title then
      flash "title is required" ;;; ret (Render "blog/update.html" [post])
    else
      db <- get_db ;;
      set_db (update_post db title body id) ;;;
      ret (Redirect "blog.index")
  else ret (Render "blog/update.html" [post]).

(** [blog.delete(id)], undecorated. *)
Definition delete (gu : option User) (id : Z) : View Response :=
  _ <- get_post gu id true ;;
  db <- get_db ;;
  set_db (delete_post db id) ;;;
  ret (Redirect "blog.index").

(** ** The application *)

Inductive Route :=
| RRegister | RLogin | RLogout | RIndex | RCreate
| RUpdate (id : Z) | RDelete (id : Z).

(** The methods each route accepts; any other gets 405. *)
Definition allows (r : Route) (m : Method) : bool :=
  match r, m with
  | RLogout, POST | RIndex, POST | RDelete _, GET => false
  | _, _ => true
  end.

Section App.

Variable generate_password_hash : string -> string.
Variable check_password_hash : string -> string -> bool.

(** URL dispatch, with the decorators as in the source. *)
Definition dispatch (r : Route) (req : Request) (gu : option User)
  : View Response :=
  if negb (allows r (req_method req)) then raise (Abort 405) else
  match r with
  | RRegister => register generate_password_hash req
  | RLogin => login check_password_hash req
  | RLogout => logout
  | RIndex => index
  | RCreate => create gu req
  | RUpdate id => login_required (fun g => update g id req) gu
  | RDelete id => login_required (fun g => delete g id) gu
  end.

(** One request: [load_logged_in_user] fills [g.user], then the view runs;
    an exception becomes the response. *)
Definition handle_request (r : Route) (req : Request) (s : St) : Response * St :=
  let gu := load_logged_in_user (st_session s) (st_db s) in
  match dispatch r req gu s with
  | (Ret resp, s') => (resp, s')
  | (Raise resp, s') => (resp, s')
  end.

End App.

(** ** [db.py]: the connection cached on [g] for one application context *)

(** [g.db] (a connection handle, if any), how many connections
    [sqlite3.connect] has opened so far (the next handle), and the handles
    closed so far, in order. *)
Record AppCtx := mkAppCtx {
  g_db : option nat;
  opened : nat;
  closed : list nat
}.

(** [db.get_db()]: connect only when [g] holds no connection. *)
Definition get_db_conn (c : AppCtx) : nat * AppCtx :=
  match g_db c with
  | Some h => (h, c)
  | None => (opened c, mkAppCtx (Some (opened c)) (S (opened c)) (closed c))
  end.

(** [db.close_db()]: [g.pop('db', None)], then close what was popped. *)
Definition close_db (c : AppCtx) : AppCtx :=
  match g_db c with
  | None => c
  | Some h => mkAppCtx None (opened c) (closed c ++ [h])
  end.

(** ** [app.py]: the directory explorer *)

Section Explore.

(** [os.listdir] and [os.path.isdir] (the latter resolves a bare name
    against the process's working directory). *)
Variable listdir : string -> list string.
Variable isdir : string -> bool.

(** The loop of [explore] over [dir_list]. *)
Fixpoint explore_loop (items dirs files : list string) : list string * list string :=
  match items with
  | [] => (dirs, files)
  | item :: rest =>
      if isdir item then explore_loop rest (dirs ++ [item]) files
      else explore_loop rest dirs (files ++ [item])
  end.

(** [explore()]: [path = request.args.get('path', '.')], then the lists
    [(directory_list, file_list)] handed to the template. *)
Definition explore (args : list (string * string)) : list string * list string :=
  let path := match find (fun kv => String.eqb (fst kv) "path") args with
              | Some kv => snd kv
              | None => "."
              end in
  explore_loop (listdir path) [] [].

End Explore.

(** ** Well-formed stores *)

(** User ids and usernames are unique (primary key and [UNIQUE]), post ids
    are unique, and every post's [author_id] names a user. *)
Definition wf_db (db : DB) : Prop :=
  NoDup (map user_id (users db)) /\
  NoDup (map username (users db)) /\
  NoDup (map post_id (posts db)) /\
  (forall p, In p (posts db) -> exists u, In u (users db) /\ user_id u = author_id p).

(** ** Sample data *)

Definition alice : User := mkUser 1 "alice" "hash:pw1".
Definition bob : User := mkUser 2 "bob" "hash:pw2".
Definition post_a : Post := mkPost 1 "T" "B" 100 1.
Definition sample_db : DB := mkDB [alice; bob] [post_a] 200.
Definition anon : Session := mkSession None [].
Definition sample_hash (pw : string) : string := "hash:" ++ pw.
Definition sample_check (h pw : string) : bool := String.eqb h ("hash:" ++ pw).
Definition post_req (form : list (string * string)) : Request := mkRequest POST form.
Definition get_req : Request := mkRequest GET [].

Example ex_end_to_end :
  let s0 := mkSt (mkDB [] [] 100) anon in
  let '(r1, s1) := handle_request sample_hash sample_check RRegister
                     (post_req [("username","alice");("password","pw1")]) s0 in
  let '(r2, s2) := handle_request sample_hash sample_check RLogin
                     (post_req [("username","alice");("password","pw1")]) s1 in
  let '(r3, s3) := handle_request sample_hash sample_check RCreate
                     (post_req [("title","T");("body","B")]) s2 in
  (r1, r2, r3, posts (st_db s3)) =
  (Redirect "auth.login", Redirect "index", Redirect "blog.index",
   [mkPost 1 "T" "B" 100 1]).
Proof. reflexivity. Qed.

(** ** Lemmas about the queries *)

Lemma find_app {A} (f : A -> bool) (l1 l2 : list A) :
  find f (l1 ++ l2) = match find f l1 with Some x => Some x | None => find f l2 end.
Proof. induction l1 as [|a l1 IH]; simpl; [reflexivity|]. destruct (f a); auto. Qed.

Lemma find_none_intro {A} (f : A -> bool) (l : list A) :
  (forall x, In x l -> f x = false) -> find f l = None.
Proof.
  induction l as [|a l IH]; intros H; simpl; [reflexivity|].
  rewrite (H a (or_introl eq_refl)). apply IH. intros x Hx. apply H. now right.
Qed.

Lemma filter_none {A} (f : A -> bool) (l : list A) :
  (forall x, In x l -> f x = false) -> filter f l = [].
Proof.
  induction l as [|a l IH]; intros H; simpl; [reflexivity|].
  rewrite (H a (or_introl eq_refl)). apply IH. intros x Hx. apply H. now right.
Qed.

Lemma in_post_join (db : DB) (r : PostRow) :
  In r (post_join db) <->
  exists p u, In p (posts db) /\ In u (users db) /\ user_id u = author_id p /\
              r = mkPostRow p (username u).
Proof.
  unfold post_join. rewrite in_flat_map. split.
  - intros [p [Hp Hr]]. apply in_map_iff in Hr as [u [<- Hu]].
    apply filter_In in Hu as [Hu Heq]. apply Z.eqb_eq in Heq.
    exists p, u. repeat split; auto.
  - intros (p & u & Hp & Hu & Ha & ->). exists p. split; [exact Hp|].
    apply in_map_iff. exists u. split; [reflexivity|].
    apply filter_In. split; [exact Hu|]. now apply Z.eqb_eq.
Qed.

Lemma select_post_sound (db : DB) (id : Z) (r : PostRow) :
  select_post db id = Some r ->
  exists p u, In p (posts db) /\ In u (users db) /\ user_id u = author_id p /\
              post_id p = id /\ r = mkPostRow p (username u).
Proof.
  unfold select_post. intros H. apply find_some in H as [Hin Heq].
  apply in_post_join in Hin as (p & u & Hp & Hu & Ha & ->).
  simpl in Heq. apply Z.eqb_eq in Heq. exists p, u. auto.
Qed.

Lemma select_post_none (db : DB) (id : Z) :
  (forall p u, In p (posts db) -> In u (users db) -> user_id u = author_id p ->
               post_id p <> id) ->
  select_post db id = None.
Proof.
  intros H. destruct (select_post db id) as [r|] eqn:E; [|reflexivity].
  apply select_post_sound in E as (p & u & Hp & Hu & Ha & Hid & _).
  exfalso. exact (H p u Hp Hu Ha Hid).
Qed.

Lemma filter_user_id_unique (us : list User) (a : User) :
  NoDup (map user_id us) -> In a us ->
  filter (fun u => Z.eqb (user_id u) (user_id a)) us = [a].
Proof.
  induction us as [|v us IH]; simpl; intros Hnd Hin; [contradiction|].
  apply NoDup_cons_iff in Hnd as [Hv Hnd].
  destruct Hin as [<- | Hin].
  - rewrite Z.eqb_refl. f_equal. apply filter_none.
    intros x Hx. apply Z.eqb_neq. intros Heq. apply Hv.
    rewrite <- Heq. now apply in_map.
  - destruct (Z.eqb_spec (user_id v) (user_id a)) as [Heq|Hne].
    + exfalso. apply Hv. rewrite Heq. now apply in_map.
    + now apply IH.
Qed.

Lemma find_user_by_id_unique (db : DB) (u : User) :
  NoDup (map user_id (users db)) -> In u (users db) ->
  find_user_by_id db (user_id u) = Some u.
Proof.
  unfold find_user_by_id. generalize (users db) as us.
  induction us as [|v us IH]; simpl; intros Hnd Hin; [contradiction|].
  apply NoDup_cons_iff in Hnd as [Hv Hnd].
  destruct Hin as [<- | Hin].
  - now rewrite Z.eqb_refl.
  - destruct (Z.eqb_spec (user_id v) (user_id u)) as [Heq|Hne].
    + exfalso. apply Hv. rewrite Heq. now apply in_map.
    + now apply IH.
Qed.

Lemma select_post_owned (db : DB) (p : Post) (a : User) :
  NoDup (map post_id (posts db)) -> NoDup (map user_id (users db)) ->
  In p (posts db) -> In a (users db) -> author_id p = user_id a ->
  select_post db (post_id p) = Some (mkPostRow p (username a)).
Proof.
  intros Hpnd Hund Hp Ha Hauth.
  apply in_split in Hp as (l1 & l2 & Hsplit).
  assert (Hfresh : ~ In (post_id p) (map post_id l1)).
  { rewrite Hsplit, map_app in Hpnd. simpl in Hpnd.
    apply NoDup_remove_2 in Hpnd. intros H. apply Hpnd. apply in_or_app. now left. }
  unfold select_post, post_join. rewrite Hsplit, flat_map_app, find_app.
  rewrite find_none_intro.
  - simpl. rewrite find_app. rewrite Hauth, filter_user_id_unique by assumption.
    simpl. now rewrite Z.eqb_refl.
  - intros r Hr. apply in_flat_map in Hr as [q [Hq Hr]].
    apply in_map_iff in Hr as [u [<- _]]. simpl. apply Z.eqb_neq.
    intros Heq. apply Hfresh. rewrite <- Heq. now apply in_map.
Qed.

Lemma in_insert_desc (x r : PostRow) (l : list PostRow) :
  In r (insert_desc x l) <-> x = r \/ In r l.
Proof.
  induction l as [|y l IH]; simpl.
  - split; intros [H|H]; auto; contradiction.
  - destruct (created (row_post y) <? created (row_post x)); simpl.
    + split; intros H; tauto.
    + rewrite IH. split; intros H; tauto.
Qed.

Lemma in_sort_created_desc (r : PostRow) (l : list PostRow) :
  In r (sort_created_desc l) <-> In r l.
Proof.
  induction l as [|x l IH]; simpl; [tauto|].
  rewrite in_insert_desc, IH. split; intros [H|H]; auto.
Qed.

(** ** Claims *)

(** C1 (code_bug): the create route is not guarded.  An anonymous [GET
    /create] is not redirected to the login view: [create] runs and renders
    its form, although the other content-changing routes are wrapped in
    [login_required]. *)
Theorem create_anonymous_not_redirected
  (gph : string -> string) (cph : string -> string -> bool) (db : DB) (fl : list string) :
  handle_request gph cph RCreate get_req (mkSt db (mkSession None fl)) =
  (Render "blog/create.html" [], mkSt db (mkSession None fl)).
Proof. reflexivity. Qed.

(** C9: an anonymous [POST /create] with a non-empty title fails with an
    unhandled [TypeError] on [g.user['id']] before the insert: the store and
    the session are unchanged and the response is not a redirect. *)
Theorem create_anonymous_post_crashes
  (gph : string -> string) (cph : string -> string -> bool) (s : St) (t b : string) :
  t <> "" ->
  load_logged_in_user (st_session s) (st_db s) = None ->
  handle_request gph cph RCreate (post_req [("title", t); ("body", b)]) s =
  (Crash "TypeError", s).
Proof.
  intros Ht Hanon. unfold handle_request. rewrite Hanon.
  destruct s as [db sess]. cbn.
  destruct (String.eqb_spec t "") as [E|E]; [contradiction|]. reflexivity.
Qed.

Lemma create_anonymous_post_crashes_witness :
  load_logged_in_user anon sample_db = None /\
  handle_request sample_hash sample_check RCreate
    (post_req [("title", "T2"); ("body", "B2")]) (mkSt sample_db anon) =
  (Crash "TypeError", mkSt sample_db anon).
Proof.
  split; [reflexivity|].
  apply (create_anonymous_post_crashes sample_hash sample_check (mkSt sample_db anon) "T2" "B2").
  - discriminate.
  - reflexivity.
Defined.

(** C8: a session without [user_id], or whose [user_id] names no user row,
    resolves to the anonymous identity, and the request goes on normally
    (the index, for instance, is rendered). *)
Theorem stale_session_is_anonymous
  (gph : string -> string) (cph : string -> string -> bool) (s : St) :
  (sess_user_id (st_session s) = None ->
   load_logged_in_user (st_session s) (st_db s) = None) /\
  (forall uid, sess_user_id (st_session s) = Some uid ->
   (forall u, In u (users (st_db s)) -> user_id u <> uid) ->
   load_logged_in_user (st_session s) (st_db s) = None) /\
  handle_request gph cph RIndex get_req s =
  (Render "blog/index.html" (index_rows (st_db s)), s).
Proof.
  split; [|split].
  - intros H. unfold load_logged_in_user. now rewrite H.
  - intros uid H Hnone. unfold load_logged_in_user. rewrite H.
    unfold find_user_by_id. apply find_none_intro.
    intros u Hu. apply Z.eqb_neq. now apply Hnone.
  - destruct s as [db sess]. reflexivity.
Qed.

(** C2: after a successful login of user [u] (the row its username
    selects, whose stored hash verifies the password), whatever the session
    held before, the next request resolves [g.user] to [u]'s row; after a
    logout, whatever the state, it resolves to anonymous.  User ids are
    unique (the primary key). *)
Theorem login_logout_session_machine
  (gph : string -> string) (cph : string -> string -> bool)
  (db : DB) (sess : Session) (u : User) (pw : string) :
  NoDup (map user_id (users db)) ->
  find_user_by_name db (username u) = Some u ->
  cph (user_password u) pw = true ->
  (exists s',
     handle_request gph cph RLogin
       (post_req [("username", username u); ("password", pw)]) (mkSt db sess) =
     (Redirect "index", s') /\
     load_logged_in_user (st_session s') (st_db s') = Some u) /\
  (forall s,
     fst (handle_request gph cph RLogout get_req s) = Redirect "index" /\
     load_logged_in_user (st_session (snd (handle_request gph cph RLogout get_req s)))
                         (st_db (snd (handle_request gph cph RLogout get_req s))) = None).
Proof.
  intros Hnd Hfind Hcheck. split.
  - eexists. split.
    + unfold handle_request, dispatch, login. cbn -[find_user_by_name].
      rewrite Hfind, Hcheck. cbn. reflexivity.
    + cbn. apply find_user_by_id_unique; [exact Hnd|].
      apply find_some in Hfind. now destruct Hfind.
  - intros [db' sess']. split; reflexivity.
Qed.

Lemma login_logout_session_machine_witness :
  exists s',
    handle_request sample_hash sample_check RLogin
      (post_req [("username", "bob"); ("password", "pw2")]) (mkSt sample_db anon) =
    (Redirect "index", s') /\
    load_logged_in_user (st_session s') (st_db s') = Some bob.
Proof.
  apply (login_logout_session_machine sample_hash sample_check sample_db anon bob "pw2").
  - vm_compute. repeat constructor; simpl; intuition discriminate.
  - reflexivity.
  - reflexivity.
Defined.

(** C4: when the username selects no row, or the selected row's hash does
    not verify the password, login answers the same way: the login form is
    re-rendered with the single flashed message "incorrect username or
    password", the store is untouched and the session keeps its [user_id]
    (only the flashed message is added to it). *)
Theorem login_failure_indistinguishable
  (gph : string -> string) (cph : string -> string -> bool)
  (db : DB) (sess : Session) (name pw : string) :
  (find_user_by_name db name = None \/
   exists u, find_user_by_name db name = Some u /\ cph (user_password u) pw = false) ->
  handle_request gph cph RLogin (post_req [("username", name); ("password", pw)])
    (mkSt db sess) =
  (Render "auth/login.html" [],
   mkSt db (mkSession (sess_user_id sess)
                      (sess_flashes sess ++ ["incorrect username or password"]))).
Proof.
  intros Hfail. unfold handle_request, dispatch, login. cbn -[find_user_by_name].
  destruct Hfail as [Hnone | (u & Hsome & Hcheck)].
  - rewrite Hnone. reflexivity.
  - rewrite Hsome, Hcheck. reflexivity.
Qed.

Lemma login_failure_indistinguishable_witness :
  (find_user_by_name sample_db "carol" = None /\
   handle_request sample_hash sample_check RLogin
     (post_req [("username", "carol"); ("password", "pw1")]) (mkSt sample_db anon) =
   (Render "auth/login.html" [],
    mkSt sample_db (mkSession None ["incorrect username or password"]))) /\
  (find_user_by_name sample_db "alice" = Some alice /\
   sample_check (user_password alice) "wrong" = false /\
   handle_request sample_hash sample_check RLogin
     (post_req [("username", "alice"); ("password", "wrong")]) (mkSt sample_db anon) =
   (Render "auth/login.html" [],
    mkSt sample_db (mkSession None ["incorrect username or password"]))).
Proof.
  split; split; [reflexivity| |reflexivity|split; [reflexivity|]].
  - apply (login_failure_indistinguishable sample_hash sample_check sample_db anon
             "carol" "pw1").
    left. reflexivity.
  - apply (login_failure_indistinguishable sample_hash sample_check sample_db anon
             "alice" "wrong").
    right. exists alice. split; reflexivity.
Defined.

(** C3: for two users [a] and [b] with distinct ids and a post of [a],
    [get_post(id, check_author=True)] aborts with 403 when [g.user] is [b]
    and returns the post (joined with [a]'s username) when it is [a].  Post
    and user ids are unique (primary keys). *)
Theorem get_post_ownership_isolation (s : St) (a b : User) (p : Post) :
  NoDup (map post_id (posts (st_db s))) -> NoDup (map user_id (users (st_db s))) ->
  In a (users (st_db s)) -> In b (users (st_db s)) -> user_id a <> user_id b ->
  In p (posts (st_db s)) -> author_id p = user_id a ->
  get_post (Some b) (post_id p) true s = (Raise (Abort 403), s) /\
  get_post (Some a) (post_id p) true s = (Ret (mkPostRow p (username a)), s).
Proof.
  intros Hpnd Hund Ha Hb Hab Hp Hauth.
  pose proof (select_post_owned (st_db s) p a Hpnd Hund Hp Ha Hauth) as Hsel.
  unfold get_post, bind, get_db. rewrite Hsel. simpl. rewrite Hauth.
  rewrite Z.eqb_refl. split; [|reflexivity].
  destruct (Z.eqb_spec (user_id a) (user_id b)); [contradiction|reflexivity].
Qed.

Lemma get_post_ownership_isolation_witness :
  get_post (Some bob) 1 true (mkSt sample_db anon) = (Raise (Abort 403), mkSt sample_db anon) /\
  get_post (Some alice) 1 true (mkSt sample_db anon) =
  (Ret (mkPostRow post_a "alice"), mkSt sample_db anon).
Proof.
  apply (get_post_ownership_isolation (mkSt sample_db anon) alice bob post_a);
    simpl; try (vm_compute; repeat constructor; simpl; intuition discriminate);
    auto; discriminate.
Defined.

(** C5, as stated: with an empty password a registered username gets the
    "password not provided" error, not the conflict message. *)
Lemma register_existing_empty_password :
  let '(r, s') := handle_request sample_hash sample_check RRegister
                    (post_req [("username", "alice"); ("password", "")])
                    (mkSt sample_db anon) in
  r = Render "auth/register.html" [] /\
  sess_flashes (st_session s') = ["password not provided"] /\
  ~ In "user alice is already registered" (sess_flashes (st_session s')).
Proof.
  simpl. split; [reflexivity|]. split; [reflexivity|].
  intros [H|H]; [discriminate|contradiction].
Qed.

(** C5, amended: for a non-empty username already in the store and a
    non-empty password, register re-renders its form with the flashed
    message "user {U} is already registered"; the store is unchanged (the
    insert's [IntegrityError] is caught). *)
Theorem register_existing_conflict
  (gph : string -> string) (cph : string -> string -> bool)
  (db : DB) (sess : Session) (u : User) (pw : string) :
  In u (users db) -> username u <> "" -> pw <> "" ->
  handle_request gph cph RRegister
    (post_req [("username", username u); ("password", pw)]) (mkSt db sess) =
  (Render "auth/register.html" [],
   mkSt db (mkSession (sess_user_id sess)
              (sess_flashes sess ++ ["user " ++ username u ++ " is already registered"]))).
Proof.
  intros Hu Hname Hpw.
  assert (Hins : insert_user db (username u) (gph pw) = None).
  { unfold insert_user.
    replace (existsb (fun v => String.eqb (username v) (username u)) (users db))
      with true; [reflexivity|].
    symmetry. apply existsb_exists. exists u. split; [exact Hu|].
    apply String.eqb_refl. }
  unfold handle_request, dispatch, register. cbn -[insert_user].
  unfold is_empty.
  destruct (String.eqb_spec (username u) "") as [E|_]; [contradiction|].
  destruct (String.eqb_spec pw "") as [E|_]; [contradiction|].
  unfold bind at 1, exec_insert_user. simpl st_db. rewrite Hins. reflexivity.
Qed.

Lemma register_existing_conflict_witness :
  handle_request sample_hash sample_check RRegister
    (post_req [("username", "alice"); ("password", "other")]) (mkSt sample_db anon) =
  (Render "auth/register.html" [],
   mkSt sample_db (mkSession None ["user alice is already registered"])).
Proof.
  apply (register_existing_conflict sample_hash sample_check sample_db anon alice "other");
    simpl; auto; discriminate.
Defined.

Lemma get_post_missing (s : St) (id : Z) (gu : option User) (ca : bool) :
  select_post (st_db s) id = None ->
  get_post gu id ca s = (Raise (Abort 404), s).
Proof. intros H. unfold get_post, bind, get_db. now rewrite H. Qed.

(** C6: when no post row has the id, [get_post(id, check_author)] aborts
    with 404 whatever [g.user] is, even anonymous (so the ownership test,
    which would fail on [None['id']], is never reached), and an
    authenticated [POST /<id>/delete] answers 404 leaving store and session
    unchanged. *)
Theorem missing_post_not_found_first
  (gph : string -> string) (cph : string -> string -> bool) (s : St) (id : Z) :
  (forall p, In p (posts (st_db s)) -> post_id p <> id) ->
  (forall gu ca, get_post gu id ca s = (Raise (Abort 404), s)) /\
  (forall req, req_method req = POST ->
     load_logged_in_user (st_session s) (st_db s) <> None ->
     handle_request gph cph (RDelete id) req s = (Abort 404, s)).
Proof.
  intros Hnone.
  assert (Hsel : select_post (st_db s) id = None).
  { apply select_post_none. intros p u Hp _ _. now apply Hnone. }
  split.
  - intros gu ca. now apply get_post_missing.
  - intros req Hpost Hauth. unfold handle_request.
    destruct (load_logged_in_user (st_session s) (st_db s)) as [a|]; [|contradiction].
    unfold dispatch. rewrite Hpost. simpl.
    unfold delete, bind at 1. rewrite (get_post_missing s id (Some a) true Hsel).
    reflexivity.
Qed.

Lemma missing_post_not_found_first_witness :
  get_post None 7 true (mkSt sample_db (mkSession (Some 2) [])) =
  (Raise (Abort 404), mkSt sample_db (mkSession (Some 2) [])) /\
  handle_request sample_hash sample_check (RDelete 7) (post_req [])
    (mkSt sample_db (mkSession (Some 2) [])) =
  (Abort 404, mkSt sample_db (mkSession (Some 2) [])).
Proof.
  destruct (missing_post_not_found_first sample_hash sample_check
              (mkSt sample_db (mkSession (Some 2) [])) 7) as [H1 H2].
  - simpl. intros p [<-|[]]. simpl. discriminate.
  - split; [apply H1|]. apply H2; [reflexivity|]. simpl. discriminate.
Defined.

Lemma Forall2_map_self {A} (R : A -> A -> Prop) (f : A -> A) (l : list A) :
  (forall x, In x l -> R x (f x)) -> Forall2 R l (map f l).
Proof.
  induction l as [|x l IH]; intros H; simpl; constructor.
  - apply H. now left.
  - apply IH. intros y Hy. apply H. now right.
Qed.

(** C7: a successful [POST /<id>/update] (the redirect to the index)
    leaves the user table as it was and changes, in each post row, at most
    the title and body of the row with that id: ids, authors and creation
    times are kept, and every other row is untouched. *)
Theorem update_frame
  (gph : string -> string) (cph : string -> string -> bool)
  (s s' : St) (id : Z) (t b : string) :
  handle_request gph cph (RUpdate id) (post_req [("title", t); ("body", b)]) s =
  (Redirect "blog.index", s') ->
  users (st_db s') = users (st_db s) /\
  Forall2 (fun q q' =>
             post_id q' = post_id q /\ author_id q' = author_id q /\
             created q' = created q /\
             (post_id q = id -> title q' = t /\ body q' = b) /\
             (post_id q <> id -> q' = q))
          (posts (st_db s)) (posts (st_db s')).
Proof.
  destruct s as [db sess]. unfold handle_request. cbn [st_session st_db].
  destruct (load_logged_in_user sess db) as [a|]; intros H; cbn in H;
    [|discriminate H].
  unfold update, get_post, bind, get_db in H. cbn in H.
  destruct (select_post db id) as [post|]; cbn in H; [|discriminate H].
  destruct (negb (author_id (row_post post) =? user_id a)); cbn in H;
    [discriminate H|].
  unfold is_empty in H. destruct (String.eqb_spec t ""); cbn in H;
    [discriminate H|].
  inversion H; subst; clear H. cbn. split; [reflexivity|].
  apply Forall2_map_self. intros q _.
  destruct (Z.eqb_spec (post_id q) id); cbn; repeat split; auto; contradiction.
Qed.

Lemma update_frame_witness :
  let s := mkSt (mkDB [alice; bob] [post_a; mkPost 2 "U" "V" 150 2] 200)
                (mkSession (Some 1) []) in
  handle_request sample_hash sample_check (RUpdate 1)
    (post_req [("title", "T2"); ("body", "B2")]) s =
  (Redirect "blog.index",
   mkSt (mkDB [alice; bob] [mkPost 1 "T2" "B2" 100 1; mkPost 2 "U" "V" 150 2] 200)
        (mkSession (Some 1) [])) /\
  users (mkDB [alice; bob] [mkPost 1 "T2" "B2" 100 1; mkPost 2 "U" "V" 150 2] 200) =
  users (st_db s) /\
  Forall2 (fun q q' =>
             post_id q' = post_id q /\ author_id q' = author_id q /\
             created q' = created q /\
             (post_id q = 1 -> title q' = "T2" /\ body q' = "B2") /\
             (post_id q <> 1 -> q' = q))
          (posts (st_db s))
          [mkPost 1 "T2" "B2" 100 1; mkPost 2 "U" "V" 150 2].
Proof.
  cbv zeta. split; [reflexivity|].
  apply (update_frame sample_hash sample_check
           (mkSt (mkDB [alice; bob] [post_a; mkPost 2 "U" "V" 150 2] 200)
                 (mkSession (Some 1) []))
           (mkSt (mkDB [alice; bob] [mkPost 1 "T2" "B2" 100 1; mkPost 2 "U" "V" 150 2] 200)
                 (mkSession (Some 1) []))
           1 "T2" "B2").
  reflexivity.
Defined.

Lemma NoDup_map_inj {A B} (f : A -> B) (l : list A) (x y : A) :
  NoDup (map f l) -> In x l -> In y l -> f x = f y -> x = y.
Proof.
  induction l as [|a l IH]; simpl; intros Hnd Hx Hy Heq; [contradiction|].
  apply NoDup_cons_iff in Hnd as [Ha Hnd].
  destruct Hx as [<-|Hx], Hy as [<-|Hy]; auto.
  - exfalso. apply Ha. rewrite Heq. now apply in_map.
  - exfalso. apply Ha. rewrite <- Heq. now apply in_map.
Qed.

(** C10: a post row whose [author_id] names no user is missing from the
    rows listed by the index (the inner join drops it) and, post ids being
    unique, [get_post] on its id aborts with 404 whatever [g.user] and
    [check_author] are, although the row is in the store. *)
Theorem orphan_post_invisible (s : St) (p : Post) :
  NoDup (map post_id (posts (st_db s))) ->
  In p (posts (st_db s)) ->
  (forall u, In u (users (st_db s)) -> user_id u <> author_id p) ->
  (forall r, In r (index_rows (st_db s)) -> row_post r <> p) /\
  (forall gu ca, get_post gu (post_id p) ca s = (Raise (Abort 404), s)).
Proof.
  intros Hnd Hp Horph. split.
  - intros r Hr Heq. unfold index_rows in Hr.
    apply in_sort_created_desc, in_post_join in Hr as (q & u & Hq & Hu & Ha & ->).
    simpl in Heq. subst q. exact (Horph u Hu Ha).
  - intros gu ca. apply get_post_missing, select_post_none.
    intros q u Hq Hu Ha Hid.
    assert (q = p) as -> by exact (NoDup_map_inj post_id _ q p Hnd Hq Hp Hid).
    exact (Horph u Hu Ha).
Qed.

Lemma orphan_post_invisible_witness :
  let s := mkSt (mkDB [alice; bob] [post_a; mkPost 2 "X" "Y" 150 9] 200) anon in
  index_rows (st_db s) = [mkPostRow post_a "alice"] /\
  get_post (Some alice) 2 false s = (Raise (Abort 404), s).
Proof.
  cbv zeta. split; [reflexivity|].
  apply (orphan_post_invisible
           (mkSt (mkDB [alice; bob] [post_a; mkPost 2 "X" "Y" 150 9] 200) anon)
           (mkPost 2 "X" "Y" 150 9)).
  - vm_compute. repeat constructor; simpl; intuition discriminate.
  - simpl. right. left. reflexivity.
  - simpl. intros u [<-|[<-|[]]]; simpl; discriminate.
Defined.

(** ** Further properties of the views *)

Lemma max_id_ge (l : list Z) (x : Z) : In x l -> x <= max_id l.
Proof.
  induction l as [|y l IH]; simpl; [contradiction|].
  intros [<-|H]; [lia|]. specialize (IH H). lia.
Qed.

Lemma fresh_id_not_in (l : list Z) : ~ In (1 + max_id l) l.
Proof. intros H. apply max_id_ge in H. lia. Qed.

Lemma find_app_last {A} (f : A -> bool) (l : list A) (x : A) :
  (forall y, In y l -> f y = false) -> f x = true -> find f (l ++ [x]) = Some x.
Proof.
  intros Hl Hx. rewrite find_app, find_none_intro by exact Hl. simpl.
  now rewrite Hx.
Qed.

(** Register: an empty username is reported first, whatever the password;
    store and identity are left as they were. *)
Theorem register_empty_username
  (gph : string -> string) (cph : string -> string -> bool)
  (db : DB) (sess : Session) (pw : string) :
  handle_request gph cph RRegister (post_req [("username", ""); ("password", pw)])
    (mkSt db sess) =
  (Render "auth/register.html" [],
   mkSt db (mkSession (sess_user_id sess) (sess_flashes sess ++ ["username not provided"]))).
Proof. reflexivity. Qed.

(** Register: a non-empty username with an empty password is refused with
    "password not provided"; store and identity are left as they were. *)
Theorem register_empty_password
  (gph : string -> string) (cph : string -> string -> bool)
  (db : DB) (sess : Session) (name : string) :
  name <> "" ->
  handle_request gph cph RRegister (post_req [("username", name); ("password", "")])
    (mkSt db sess) =
  (Render "auth/register.html" [],
   mkSt db (mkSession (sess_user_id sess) (sess_flashes sess ++ ["password not provided"]))).
Proof.
  intros Hn. unfold handle_request, dispatch, register. cbn.
  unfold is_empty. destruct (String.eqb_spec name ""); [contradiction|]. reflexivity.
Qed.

Lemma register_empty_password_witness :
  handle_request sample_hash sample_check RRegister
    (post_req [("username", "carol"); ("password", "")]) (mkSt sample_db anon) =
  (Render "auth/register.html" [],
   mkSt sample_db (mkSession None ["password not provided"])).
Proof.
  apply (register_empty_password sample_hash sample_check sample_db anon "carol").
  discriminate.
Defined.

(** Register: a new non-empty username with a non-empty password appends
    one user row (fresh id, the username, the hash of the password), leaves
    posts and session alone and redirects to the login view. *)
Theorem register_fresh_inserts
  (gph : string -> string) (cph : string -> string -> bool)
  (db : DB) (sess : Session) (name pw : string) :
  name <> "" -> pw <> "" ->
  (forall u, In u (users db) -> username u <> name) ->
  handle_request gph cph RRegister (post_req [("username", name); ("password", pw)])
    (mkSt db sess) =
  (Redirect "auth.login",
   mkSt (mkDB (users db ++ [mkUser (1 + max_id (map user_id (users db))) name (gph pw)])
              (posts db) (now db))
        sess).
Proof.
  intros Hn Hp Hfresh.
  assert (Hins : insert_user db name (gph pw) =
                 Some (mkDB (users db ++ [mkUser (1 + max_id (map user_id (users db)))
                                                 name (gph pw)])
                            (posts db) (now db))).
  { unfold insert_user.
    replace (existsb (fun u => String.eqb (username u) name) (users db)) with false;
      [reflexivity|].
    symmetry. apply not_true_iff_false. intros H.
    apply existsb_exists in H as [u [Hu Heq]]. apply String.eqb_eq in Heq.
    exact (Hfresh u Hu Heq). }
  unfold handle_request, dispatch, register. cbn -[insert_user].
  unfold is_empty.
  destruct (String.eqb_spec name ""); [contradiction|].
  destruct (String.eqb_spec pw ""); [contradiction|].
  unfold bind at 1, exec_insert_user. simpl st_db. rewrite Hins. reflexivity.
Qed.

Lemma register_fresh_inserts_witness :
  handle_request sample_hash sample_check RRegister
    (post_req [("username", "carol"); ("password", "pw3")]) (mkSt sample_db anon) =
  (Redirect "auth.login",
   mkSt (mkDB [alice; bob; mkUser 3 "carol" "hash:pw3"] [post_a] 200) anon).
Proof.
  apply (register_fresh_inserts sample_hash sample_check sample_db anon "carol" "pw3");
    try discriminate.
  simpl. intros u [<-|[<-|[]]]; discriminate.
Defined.

(** Register then login: when the password hash verifies the password it
    was made from, registering a new name and logging in with the same
    password makes the next request resolve [g.user] to the new row. *)
Theorem register_then_login
  (gph : string -> string) (cph : string -> string -> bool)
  (db : DB) (sess : Session) (name pw : string) :
  name <> "" -> pw <> "" ->
  (forall u, In u (users db) -> username u <> name) ->
  cph (gph pw) pw = true ->
  exists s1 s2,
    handle_request gph cph RRegister (post_req [("username", name); ("password", pw)])
      (mkSt db sess) = (Redirect "auth.login", s1) /\
    handle_request gph cph RLogin (post_req [("username", name); ("password", pw)]) s1 =
      (Redirect "index", s2) /\
    load_logged_in_user (st_session s2) (st_db s2) =
      Some (mkUser (1 + max_id (map user_id (users db))) name (gph pw)).
Proof.
  intros Hn Hp Hfresh Hcheck.
  set (nu := mkUser (1 + max_id (map user_id (users db))) name (gph pw)).
  set (db1 := mkDB (users db ++ [nu]) (posts db) (now db)).
  assert (Hname : find_user_by_name db1 name = Some nu).
  { unfold find_user_by_name, db1. cbn [users]. apply find_app_last.
    - intros y Hy. apply String.eqb_neq. now apply Hfresh.
    - apply String.eqb_refl. }
  assert (Hid : find_user_by_id db1 (user_id nu) = Some nu).
  { unfold find_user_by_id, db1. cbn [users]. apply find_app_last.
    - intros y Hy. apply Z.eqb_neq. intros Heq.
      apply (fresh_id_not_in (map user_id (users db))).
      change (1 + max_id (map user_id (users db))) with (user_id nu).
      rewrite <- Heq. now apply in_map.
    - apply Z.eqb_refl. }
  exists (mkSt db1 sess).
  eexists. split; [|split].
  - exact (register_fresh_inserts gph cph db sess name pw Hn Hp Hfresh).
  - unfold handle_request, dispatch, login. cbn -[find_user_by_name].
    rewrite Hname. change (user_password nu) with (gph pw). rewrite Hcheck.
    cbn. reflexivity.
  - exact Hid.
Qed.

Lemma register_then_login_witness :
  exists s1 s2,
    handle_request sample_hash sample_check RRegister
      (post_req [("username", "carol"); ("password", "pw3")]) (mkSt sample_db anon) =
      (Redirect "auth.login", s1) /\
    handle_request sample_hash sample_check RLogin
      (post_req [("username", "carol"); ("password", "pw3")]) s1 =
      (Redirect "index", s2) /\
    load_logged_in_user (st_session s2) (st_db s2) = Some (mkUser 3 "carol" "hash:pw3").
Proof.
  apply (register_then_login sample_hash sample_check sample_db anon "carol" "pw3");
    try discriminate; [|reflexivity].
  simpl. intros u [<-|[<-|[]]]; discriminate.
Defined.

(** A POSTed form lacking the field a view reads first is answered with
    400 (werkzeug's [BadRequestKeyError]) before anything else happens: no
    username for register and login, no title for create, whoever is
    logged in. *)
Theorem missing_form_field_400
  (gph : string -> string) (cph : string -> string -> bool) (s : St) (req : Request) :
  req_method req = POST ->
  (find (fun kv => String.eqb (fst kv) "username") (req_form req) = None ->
   handle_request gph cph RRegister req s = (Abort 400, s) /\
   handle_request gph cph RLogin req s = (Abort 400, s)) /\
  (find (fun kv => String.eqb (fst kv) "title") (req_form req) = None ->
   handle_request gph cph RCreate req s = (Abort 400, s)).
Proof.
  destruct req as [m form], s as [db sess]. simpl. intros ->.
  split; [intros H; split|intros H];
    unfold handle_request, dispatch, register, login, create, form_get; simpl;
    rewrite H; reflexivity.
Qed.

Lemma missing_form_field_400_witness :
  handle_request sample_hash sample_check RLogin (post_req [("password", "pw1")])
    (mkSt sample_db anon) = (Abort 400, mkSt sample_db anon).
Proof.
  apply (missing_form_field_400 sample_hash sample_check (mkSt sample_db anon)
           (post_req [("password", "pw1")])); reflexivity.
Defined.

(** A successful login replaces the whole session: the flashed messages
    and any earlier identity are dropped and only the new [user_id] is
    kept; the store is not touched. *)
Theorem login_success_resets_session
  (gph : string -> string) (cph : string -> string -> bool)
  (db : DB) (sess : Session) (u : User) (pw : string) :
  find_user_by_name db (username u) = Some u ->
  cph (user_password u) pw = true ->
  handle_request gph cph RLogin (post_req [("username", username u); ("password", pw)])
    (mkSt db sess) =
  (Redirect "index", mkSt db (mkSession (Some (user_id u)) [])).
Proof.
  intros Hfind Hcheck. unfold handle_request, dispatch, login.
  cbn -[find_user_by_name]. rewrite Hfind, Hcheck. reflexivity.
Qed.

Lemma login_success_resets_session_witness :
  handle_request sample_hash sample_check RLogin
    (post_req [("username", "alice"); ("password", "pw1")])
    (mkSt sample_db (mkSession (Some 2) ["title is required"])) =
  (Redirect "index", mkSt sample_db (mkSession (Some 1) [])).
Proof.
  apply (login_success_resets_session sample_hash sample_check sample_db
           (mkSession (Some 2) ["title is required"]) alice "pw1"); reflexivity.
Defined.

(** Create with an empty title flashes "title is required" and re-renders
    the form, for any identity (anonymous too: the title is checked before
    [g.user] is read); store and identity are unchanged. *)
Theorem create_empty_title
  (gph : string -> string) (cph : string -> string -> bool)
  (db : DB) (sess : Session) (b : string) :
  handle_request gph cph RCreate (post_req [("title", ""); ("body", b)]) (mkSt db sess) =
  (Render "blog/create.html" [],
   mkSt db (mkSession (sess_user_id sess) (sess_flashes sess ++ ["title is required"]))).
Proof. reflexivity. Qed.

(** Create by a logged-in user with a non-empty title appends one post
    row: a fresh id, the title and body, the current time as [created] and
    the user's id as [author_id]; users and session are unchanged. *)
Theorem create_inserts_post
  (gph : string -> string) (cph : string -> string -> bool)
  (db : DB) (sess : Session) (a : User) (t b : string) :
  load_logged_in_user sess db = Some a -> t <> "" ->
  handle_request gph cph RCreate (post_req [("title", t); ("body", b)]) (mkSt db sess) =
  (Redirect "blog.index",
   mkSt (mkDB (users db)
              (posts db ++ [mkPost (1 + max_id (map post_id (posts db))) t b (now db)
                                   (user_id a)])
              (now db))
        sess).
Proof.
  intros Hg Ht. unfold handle_request. cbn [st_session st_db]. rewrite Hg.
  cbn. unfold is_empty. destruct (String.eqb_spec t ""); [contradiction|].
  reflexivity.
Qed.

Lemma create_inserts_post_witness :
  handle_request sample_hash sample_check RCreate (post_req [("title", "N"); ("body", "")])
    (mkSt sample_db (mkSession (Some 2) [])) =
  (Redirect "blog.index",
   mkSt (mkDB [alice; bob] [post_a; mkPost 2 "N" "" 200 2] 200) (mkSession (Some 2) [])).
Proof.
  apply (create_inserts_post sample_hash sample_check sample_db (mkSession (Some 2) [])
           bob "N" ""); [reflexivity|discriminate].
Defined.

(** Without a resolved identity, update (any method) and delete are
    redirected to the login view and change nothing, whatever the id. *)
Theorem guarded_routes_redirect_anonymous
  (gph : string -> string) (cph : string -> string -> bool)
  (s : St) (id : Z) (req : Request) :
  load_logged_in_user (st_session s) (st_db s) = None ->
  handle_request gph cph (RUpdate id) req s = (Redirect "auth.login", s) /\
  (req_method req = POST ->
   handle_request gph cph (RDelete id) req s = (Redirect "auth.login", s)).
Proof.
  intros Hg. unfold handle_request. rewrite Hg. split.
  - destruct (req_method req); reflexivity.
  - intros Hm. unfold dispatch. rewrite Hm. reflexivity.
Qed.

Lemma guarded_routes_redirect_anonymous_witness :
  handle_request sample_hash sample_check (RDelete 1) (post_req [])
    (mkSt sample_db (mkSession (Some 9) [])) =
  (Redirect "auth.login", mkSt sample_db (mkSession (Some 9) [])).
Proof.
  apply (guarded_routes_redirect_anonymous sample_hash sample_check
           (mkSt sample_db (mkSession (Some 9) [])) 1 (post_req [])); reflexivity.
Defined.

Section Owned.

Variable gph : string -> string.
Variable cph : string -> string -> bool.
Variables (db : DB) (sess : Session) (a : User) (p : Post).
Hypothesis Hpnd : NoDup (map post_id (posts db)).
Hypothesis Hund : NoDup (map user_id (users db)).
Hypothesis Hp : In p (posts db).
Hypothesis Ha : In a (users db).
Hypothesis Hauth : author_id p = user_id a.

(** Update and delete by a logged-in user who is not the post's author
    abort with 403 and leave store and session as they were. *)
Theorem non_author_forbidden (b : User) (req : Request) :
  load_logged_in_user sess db = Some b -> user_id b <> user_id a ->
  req_method req = POST ->
  handle_request gph cph (RUpdate (post_id p)) req (mkSt db sess) =
    (Abort 403, mkSt db sess) /\
  handle_request gph cph (RDelete (post_id p)) req (mkSt db sess) =
    (Abort 403, mkSt db sess).
Proof.
  intros Hg Hba Hm.
  pose proof (select_post_owned db p a Hpnd Hund Hp Ha Hauth) as Hsel.
  unfold handle_request. cbn [st_session st_db]. rewrite Hg.
  unfold dispatch. rewrite Hm. unfold update, delete, get_post, bind, get_db.
  cbn -[select_post]. rewrite Hsel. cbn. rewrite Hauth.
  destruct (Z.eqb_spec (user_id a) (user_id b)) as [E|_];
    [congruence|split; reflexivity].
Qed.

(** Delete by the author removes the post's row (every row with its id)
    and no other, leaves the users alone and redirects to the index; a
    later [get_post] of that id aborts with 404. *)
Theorem author_delete_removes
  (req : Request) :
  load_logged_in_user sess db = Some a -> req_method req = POST ->
  exists s',
    handle_request gph cph (RDelete (post_id p)) req (mkSt db sess) =
      (Redirect "blog.index", s') /\
    users (st_db s') = users db /\
    posts (st_db s') = filter (fun q => negb (Z.eqb (post_id q) (post_id p))) (posts db) /\
    (forall gu ca, get_post gu (post_id p) ca s' = (Raise (Abort 404), s')).
Proof.
  intros Hg Hm.
  pose proof (select_post_owned db p a Hpnd Hund Hp Ha Hauth) as Hsel.
  eexists. split; [|split; [|split]].
  - unfold handle_request. cbn [st_session st_db]. rewrite Hg.
    unfold dispatch. rewrite Hm. unfold delete, get_post, bind, get_db.
    cbn -[select_post delete_post].
    rewrite Hsel. cbn -[delete_post]. rewrite Hauth, Z.eqb_refl. reflexivity.
  - reflexivity.
  - reflexivity.
  - intros gu ca. apply get_post_missing, select_post_none.
    intros q u Hq _ _ Hid. cbn in Hq. apply filter_In in Hq as [_ Hq].
    rewrite Hid, Z.eqb_refl in Hq. discriminate.
Qed.

(** Update by the author with an empty title flashes "title is required"
    and re-renders the update form with the post; the store is unchanged. *)
Theorem author_update_empty_title (b : string) :
  load_logged_in_user sess db = Some a ->
  handle_request gph cph (RUpdate (post_id p)) (post_req [("title", ""); ("body", b)])
    (mkSt db sess) =
  (Render "blog/update.html" [mkPostRow p (username a)],
   mkSt db (mkSession (sess_user_id sess) (sess_flashes sess ++ ["title is required"]))).
Proof.
  intros Hg.
  pose proof (select_post_owned db p a Hpnd Hund Hp Ha Hauth) as Hsel.
  unfold handle_request. cbn [st_session st_db]. rewrite Hg.
  unfold dispatch, update, get_post, bind, get_db.
  cbn -[select_post]. rewrite Hsel. cbn. rewrite Hauth, Z.eqb_refl. reflexivity.
Qed.

End Owned.

Lemma sample_wf :
  NoDup (map post_id (posts sample_db)) /\ NoDup (map user_id (users sample_db)) /\
  In post_a (posts sample_db) /\ In alice (users sample_db) /\
  author_id post_a = user_id alice.
Proof.
  vm_compute. repeat split; try (repeat constructor; simpl; intuition discriminate); auto.
Qed.

Lemma non_author_forbidden_witness :
  handle_request sample_hash sample_check (RUpdate 1) (post_req [("title", "X"); ("body", "")])
    (mkSt sample_db (mkSession (Some 2) [])) =
    (Abort 403, mkSt sample_db (mkSession (Some 2) [])) /\
  handle_request sample_hash sample_check (RDelete 1) (post_req [("title", "X"); ("body", "")])
    (mkSt sample_db (mkSession (Some 2) [])) =
    (Abort 403, mkSt sample_db (mkSession (Some 2) [])).
Proof.
  destruct sample_wf as (H1 & H2 & H3 & H4 & H5).
  apply (non_author_forbidden sample_hash sample_check sample_db (mkSession (Some 2) [])
           alice post_a H1 H2 H3 H4 H5 bob); [reflexivity|discriminate|reflexivity].
Defined.

Lemma author_delete_removes_witness :
  exists s',
    handle_request sample_hash sample_check (RDelete 1) (post_req [])
      (mkSt sample_db (mkSession (Some 1) [])) = (Redirect "blog.index", s') /\
    users (st_db s') = users sample_db /\
    posts (st_db s') = filter (fun q => negb (Z.eqb (post_id q) 1)) (posts sample_db) /\
    (forall gu ca, get_post gu 1 ca s' = (Raise (Abort 404), s')).
Proof.
  destruct sample_wf as (H1 & H2 & H3 & H4 & H5).
  apply (author_delete_removes sample_hash sample_check sample_db (mkSession (Some 1) [])
           alice post_a H1 H2 H3 H4 H5 (post_req [])); reflexivity.
Defined.

Lemma author_update_empty_title_witness :
  handle_request sample_hash sample_check (RUpdate 1) (post_req [("title", ""); ("body", "b")])
    (mkSt sample_db (mkSession (Some 1) [])) =
  (Render "blog/update.html" [mkPostRow post_a "alice"],
   mkSt sample_db (mkSession (Some 1) ["title is required"])).
Proof.
  destruct sample_wf as (H1 & H2 & H3 & H4 & H5).
  apply (author_update_empty_title sample_hash sample_check sample_db (mkSession (Some 1) [])
           alice post_a H1 H2 H3 H4 H5 "b"); reflexivity.
Defined.

(** ** The index is listed newest first *)

Lemma insert_desc_hd (a x : PostRow) (l : list PostRow) :
  HdRel (fun r1 r2 => created (row_post r2) <= created (row_post r1)) a l ->
  created (row_post x) <= created (row_post a) ->
  HdRel (fun r1 r2 => created (row_post r2) <= created (row_post r1)) a (insert_desc x l).
Proof.
  destruct l as [|y l]; simpl; intros Hhd Hx; [now constructor|].
  destruct (created (row_post y) <? created (row_post x)); constructor; [exact Hx|].
  now inversion Hhd.
Qed.

Lemma insert_desc_sorted (x : PostRow) (l : list PostRow) :
  Sorted (fun r1 r2 => created (row_post r2) <= created (row_post r1)) l ->
  Sorted (fun r1 r2 => created (row_post r2) <= created (row_post r1)) (insert_desc x l).
Proof.
  induction l as [|y l IH]; simpl; intros Hs; [now repeat constructor|].
  destruct (Z.ltb_spec (created (row_post y)) (created (row_post x))) as [Hlt|Hge].
  - constructor; [exact Hs|]. constructor. lia.
  - inversion Hs as [|? ? Hs' Hhd]; subst. constructor; [now apply IH|].
    now apply insert_desc_hd.
Qed.

Lemma insert_desc_perm (x : PostRow) (l : list PostRow) :
  Permutation (insert_desc x l) (x :: l).
Proof.
  induction l as [|y l IH]; simpl; [reflexivity|].
  destruct (created (row_post y) <? created (row_post x)); [reflexivity|].
  rewrite IH. apply perm_swap.
Qed.

(** The rows given to [blog/index.html] are the rows of the post/user
    join, each exactly once, ordered by [created], newest first. *)
Theorem index_rows_sorted_perm (db : DB) :
  Sorted (fun r1 r2 => created (row_post r2) <= created (row_post r1)) (index_rows db) /\
  Permutation (index_rows db) (post_join db).
Proof.
  unfold index_rows. induction (post_join db) as [|x l [IHs IHp]]; simpl.
  - split; constructor.
  - split; [now apply insert_desc_sorted|].
    rewrite insert_desc_perm. now apply perm_skip.
Qed.

(** ** Every request keeps the store well formed *)

Lemma NoDup_snoc {A} (l : list A) (x : A) :
  NoDup l -> ~ In x l -> NoDup (l ++ [x]).
Proof.
  intros Hl Hx. apply NoDup_app; [exact Hl|repeat constructor; auto|].
  intros a Ha [<-|[]]. contradiction.
Qed.

Lemma NoDup_map_filter {A B} (f : A -> B) (g : A -> bool) (l : list A) :
  NoDup (map f l) -> NoDup (map f (filter g l)).
Proof.
  induction l as [|x l IH]; simpl; intros Hnd; [constructor|].
  apply NoDup_cons_iff in Hnd as [Hx Hnd].
  destruct (g x); simpl; [|now apply IH].
  constructor; [|now apply IH].
  intros Hin. apply Hx. apply in_map_iff in Hin as [y [Hy Hin]].
  apply filter_In in Hin as [Hin _]. rewrite <- Hy. now apply in_map.
Qed.

Lemma load_logged_in_user_in (sess : Session) (db : DB) (a : User) :
  load_logged_in_user sess db = Some a -> In a (users db).
Proof.
  unfold load_logged_in_user, find_user_by_id.
  destruct (sess_user_id sess); [|discriminate].
  intros H. now apply find_some in H as [H _].
Qed.

Lemma wf_insert_user (db db' : DB) (name pw : string) :
  wf_db db -> insert_user db name pw = Some db' -> wf_db db'.
Proof.
  intros (Hid & Hname & Hpid & Hauth). unfold insert_user.
  destruct (existsb (fun u => String.eqb (username u) name) (users db)) eqn:E;
    [discriminate|].
  intros H. injection H as <-. unfold wf_db; cbn [users posts].
  rewrite !map_app. simpl. repeat split.
  - apply NoDup_snoc; [exact Hid|apply fresh_id_not_in].
  - apply NoDup_snoc; [exact Hname|]. intros Hin.
    apply in_map_iff in Hin as [u [Hu Hin]].
    apply not_true_iff_false in E. apply E. apply existsb_exists.
    exists u. split; [exact Hin|]. now apply String.eqb_eq.
  - exact Hpid.
  - intros p Hp. destruct (Hauth p Hp) as [u [Hu Hu']].
    exists u. split; [apply in_or_app; now left|exact Hu'].
Qed.

Lemma wf_insert_post (db : DB) (t b : string) (a : User) :
  wf_db db -> In a (users db) -> wf_db (insert_post db t b (user_id a)).
Proof.
  intros (Hid & Hname & Hpid & Hauth) Ha. unfold wf_db, insert_post; cbn [users posts].
  repeat split; [exact Hid|exact Hname| |].
  - rewrite map_app. apply NoDup_snoc; [exact Hpid|apply fresh_id_not_in].
  - intros p Hp. apply in_app_or in Hp as [Hp|[<-|[]]].
    + now apply Hauth.
    + exists a. split; [exact Ha|reflexivity].
Qed.

Lemma wf_update_post (db : DB) (t b : string) (id : Z) :
  wf_db db -> wf_db (update_post db t b id).
Proof.
  intros (Hid & Hname & Hpid & Hauth). unfold wf_db, update_post; cbn [users posts].
  repeat split; [exact Hid|exact Hname| |].
  - rewrite map_map.
    replace (map _ (posts db)) with (map post_id (posts db)); [exact Hpid|].
    apply map_ext. intros p. now destruct (post_id p =? id).
  - intros q Hq. apply in_map_iff in Hq as [p [<- Hp]].
    destruct (Hauth p Hp) as [u [Hu Hu']]. exists u. split; [exact Hu|].
    now destruct (post_id p =? id).
Qed.

Lemma wf_delete_post (db : DB) (id : Z) :
  wf_db db -> wf_db (delete_post db id).
Proof.
  intros (Hid & Hname & Hpid & Hauth). unfold wf_db, delete_post; cbn [users posts].
  repeat split; [exact Hid|exact Hname| |].
  - now apply NoDup_map_filter.
  - intros q Hq. apply filter_In in Hq as [Hq _]. now apply Hauth.
Qed.

Create HintDb wf_store.
#[local] Hint Resolve wf_insert_user wf_insert_post wf_update_post wf_delete_post
  : wf_store.

Ltac no_match x :=
  lazymatch x with
  | context [match _ with _ => _ end] => fail
  | _ => idtac
  end.

Ltac split_matches H :=
  repeat (match type of H with
          | context [match ?x with _ => _ end] =>
              no_match x; destruct x eqn:?
          end; cbn -[insert_user insert_post update_post delete_post select_post
                     find_user_by_name] in H).

(** Whatever the route, request and identity, a request run against a
    well-formed store leaves a well-formed store, whether it succeeds,
    aborts or crashes. *)
Theorem handle_request_preserves_wf
  (gph : string -> string) (cph : string -> string -> bool)
  (r : Route) (req : Request) (s s' : St) (resp : Response) :
  wf_db (st_db s) ->
  handle_request gph cph r req s = (resp, s') ->
  wf_db (st_db s').
Proof.
  destruct s as [db sess]. cbn [st_db]. intros Hwf H.
  unfold handle_request in H. cbn [st_session st_db] in H.
  destruct (load_logged_in_user sess db) as [a|] eqn:Hg;
    [pose proof (load_logged_in_user_in _ _ _ Hg) as Ha|];
    destruct r; unfold dispatch, register, login, logout, index, create, update, delete,
      login_required, get_post, form_get, flash, session_clear, session_set_user_id,
      g_user_id, exec_insert_user, set_db, get_db, bind, ret, raise in H;
    cbn -[insert_user insert_post update_post delete_post select_post
          find_user_by_name] in H;
    split_matches H;
    try (injection H as _ <-); cbn; eauto with wf_store.
Qed.

Lemma sample_db_wf : wf_db sample_db.
Proof.
  unfold wf_db. vm_compute. repeat split; try (repeat constructor; simpl; intuition discriminate).
  intros p [<-|[]]. exists alice. split; [left|]; reflexivity.
Qed.

Lemma handle_request_preserves_wf_witness :
  wf_db (st_db (snd (handle_request sample_hash sample_check RCreate
                       (post_req [("title", "N"); ("body", "")])
                       (mkSt sample_db (mkSession (Some 2) []))))).
Proof.
  apply (handle_request_preserves_wf sample_hash sample_check RCreate
           (post_req [("title", "N"); ("body", "")])
           (mkSt sample_db (mkSession (Some 2) [])) _
           (fst (handle_request sample_hash sample_check RCreate
                   (post_req [("title", "N"); ("body", "")])
                   (mkSt sample_db (mkSession (Some 2) []))))).
  - exact sample_db_wf.
  - apply surjective_pairing.
Defined.

(** ** [db.py]: one connection per application context *)

(** [get_db] opens a connection only when [g] has none (then with the next
    handle); a second call returns the same handle and changes nothing.
    [close_db] then closes exactly that handle and empties [g], and a
    second [close_db] does nothing. *)
Theorem get_db_cached_then_closed (c : AppCtx) :
  let (h, c1) := get_db_conn c in
  get_db_conn c1 = (h, c1) /\
  g_db c1 = Some h /\
  opened c1 = (match g_db c with None => S (opened c) | Some _ => opened c end) /\
  (g_db c = None -> h = opened c) /\
  g_db (close_db c1) = None /\
  closed (close_db c1) = (closed c ++ [h])%list /\
  close_db (close_db c1) = close_db c1.
Proof.
  destruct c as [[h|] n cl]; cbn; repeat split; auto; discriminate.
Qed.

(** ** [app.py]: [explore] splits the listing *)

Lemma explore_loop_filter (isdir : string -> bool) (items dirs files : list string) :
  explore_loop isdir items dirs files =
  ((dirs ++ filter isdir items)%list, (files ++ filter (fun x => negb (isdir x)) items)%list).
Proof.
  revert dirs files. induction items as [|x items IH]; intros dirs files; simpl.
  - now rewrite !app_nil_r.
  - destruct (isdir x); simpl; rewrite IH; now rewrite <- app_assoc.
Qed.

(** [explore] lists the directory named by the [path] query argument
    ("." when absent) and hands the template, in listing order, the entries
    [os.path.isdir] accepts as [directories] and all the others as
    [files]. *)
Theorem explore_partitions
  (listdir : string -> list string) (isdir : string -> bool)
  (args : list (string * string)) :
  let path := match find (fun kv => String.eqb (fst kv) "path") args with
              | Some kv => snd kv
              | None => "."
              end in
  explore listdir isdir args =
  (filter isdir (listdir path), filter (fun x => negb (isdir x)) (listdir path)).
Proof. unfold explore. cbv zeta. apply explore_loop_filter. Qed.

(** No request removes or changes a user row: the user table after any
    request is the table before it, possibly with rows appended. *)
Theorem users_only_grow
  (gph : string -> string) (cph : string -> string -> bool)
  (r : Route) (req : Request) (s s' : St) (resp : Response) :
  handle_request gph cph r req s = (resp, s') ->
  exists extra, users (st_db s') = (users (st_db s) ++ extra)%list.
Proof.
  destruct s as [db sess]. cbn [st_db]. intros H.
  unfold handle_request in H. cbn [st_session st_db] in H.
  destruct (load_logged_in_user sess db) as [a|] eqn:Hg;
    destruct r; unfold dispatch, register, login, logout, index, create, update, delete,
      login_required, get_post, form_get, flash, session_clear, session_set_user_id,
      g_user_id, exec_insert_user, set_db, get_db, bind, ret, raise in H;
    cbn -[insert_user insert_post update_post delete_post select_post
          find_user_by_name] in H;
    split_matches H;
    try (injection H as _ <-); cbn;
    lazymatch goal with
    | E : insert_user _ _ _ = Some _ |- _ =>
        unfold insert_user in E;
        destruct (existsb _ _); [discriminate|injection E as <-]; eexists; reflexivity
    | _ => exists []; now rewrite app_nil_r
    end.
Qed.

Lemma users_only_grow_witness :
  exists extra,
    users (st_db (snd (handle_request sample_hash sample_check RRegister
                         (post_req [("username", "carol"); ("password", "pw3")])
                         (mkSt sample_db anon)))) = (users sample_db ++ extra)%list.
Proof.
  apply (users_only_grow sample_hash sample_check RRegister
           (post_req [("username", "carol"); ("password", "pw3")]) (mkSt sample_db anon) _
           (fst (handle_request sample_hash sample_check RRegister
                   (post_req [("username", "carol"); ("password", "pw3")])
                   (mkSt sample_db anon)))).
  apply surjective_pairing.
Defined.
